(** * Agent setup: prompt loading, agent construction and tool registration

    A shallow embedding of [src/agent_setup.py].  The module is glue around
    three libraries (the agent framework, the tracing decorator and two
    vendor connectors); what it decides itself is

    - which file the system prompt is read from and how it is trimmed,
    - which keyword arguments the [Agent] constructor receives,
    - what the two tool closures pass to [connector.execute].

    Python strings are sequences of code points, the parameter mapping is a
    heap-allocated [dict] object, and exceptions are the left summand of the
    outcome.  The model constructor, the file read, the [Agent] constructor
    and every [connector.execute] leave an event in a trace; the decorators
    are parameters that turn a function into a function. *)

From Stdlib Require Import NArith ZArith String Ascii Lia.
From stdpp Require Import base list.

Local Open Scope N_scope.

(** ** Python strings *)

(** A [str] is a sequence of Unicode code points. *)
Definition pystr := list N.

(** An ASCII literal of the source, as a [str]. *)
Definition py (s : string) : pystr :=
  map N_of_ascii (list_ascii_of_string s).

Arguments py s%_string.

(** [str.isspace] on one code point (CPython's [_PyUnicode_IsWhitespace]). *)
Definition Py_UNICODE_ISSPACE (ch : N) : bool :=
  ((0x09 <=? ch) && (ch <=? 0x0D))
  || ((0x1C <=? ch) && (ch <=? 0x20))
  || (ch =? 0x85) || (ch =? 0xA0) || (ch =? 0x1680)
  || ((0x2000 <=? ch) && (ch <=? 0x200A))
  || (ch =? 0x2028) || (ch =? 0x2029) || (ch =? 0x202F)
  || (ch =? 0x205F) || (ch =? 0x3000).

Local Close Scope N_scope.

Fixpoint drop_while {A} (p : A -> bool) (s : list A) : list A :=
  match s with
  | [] => []
  | c :: s' => if p c then drop_while p s' else s
  end.

Definition lstrip (s : pystr) : pystr := drop_while Py_UNICODE_ISSPACE s.

Definition rstrip (s : pystr) : pystr :=
  rev (drop_while Py_UNICODE_ISSPACE (rev s)).

(** [s.strip()] with no argument: leading, then trailing whitespace goes. *)
Definition strip (s : pystr) : pystr := rstrip (lstrip s).

(** What the specification calls "trimmed of surrounding whitespace":
    [s] is [t] without a whitespace-only prefix and suffix, and [s] itself
    neither starts nor ends with whitespace. *)
Definition trimmed_of (t s : pystr) : Prop :=
  (exists l r : pystr,
      t = l ++ s ++ r
      /\ Forall (fun c => Py_UNICODE_ISSPACE c = true) l
      /\ Forall (fun c => Py_UNICODE_ISSPACE c = true) r)
  /\ (forall c s', s = c :: s' -> Py_UNICODE_ISSPACE c = false)
  /\ (forall c s', s = s' ++ [c] -> Py_UNICODE_ISSPACE c = false).

(** ** pathlib *)

(** A pure path: the anchor (drive and root, empty for a relative path) and
    the components below it. *)
Record Path := mkPath { anchor : pystr; names : list pystr }.

(** [p.parent]: the path without its last component; a path that is only
    an anchor is its own parent. *)
Definition parent (p : Path) : Path :=
  match names p with
  | [] => p
  | _ :: _ => mkPath (anchor p) (removelast (names p))
  end.

(** [p / name] for a single relative component [name]. *)
Definition truediv (p : Path) (name : pystr) : Path :=
  mkPath (anchor p) (names p ++ [name]).

(** [p.name]: the last component, empty when there is none. *)
Definition name (p : Path) : pystr := List.last (names p) [].

Declare Scope path_scope.
Delimit Scope path_scope with path.
Notation "p / s" := (truediv p s) : path_scope.

(** ** Python objects the module handles *)

(** Exceptions: the one [Path.read_text] raises for an absent file, and
    whatever a library raises, by class name and message. *)
Inductive Exn :=
| FileNotFoundError (p : Path)
| Raised (cls msg : pystr).

(** A [dict] object lives in the heap and is named by its location. *)
Definition loc := nat.

(** A value of type [dict | None], the annotation of [params]. *)
Inductive pyobj :=
| PyNone
| PyDict (l : loc).

(** [AnthropicModel(name)]: the model object keeps the identifier. *)
Record AnthropicModel := mkModel { model_name : pystr }.

Inductive ConnectorClass := GongConnectorT | HubspotConnectorT.

(** Values of the keyword arguments given to [Agent(...)]. *)
Inductive KwVal :=
| KwModel (m : AnthropicModel)
| KwUnion (ts : list ConnectorClass)
| KwStr (s : pystr)
| KwInt (z : Z).

Definition kwargs := list (string * KwVal).

Fixpoint kwarg (k : string) (kw : kwargs) : option KwVal :=
  match kw with
  | [] => None
  | (k', v) :: kw' => if String.eqb k k' then Some v else kwarg k kw'
  end.

(** Calls that leave the module, in the order they happen. *)
Inductive Event :=
| EvAnthropicModel (model : pystr)
| EvReadText (p : Path)
| EvAgentInit (kw : kwargs)
| EvExecute (connector : nat) (entity action : pystr) (params : pyobj).

Definition is_execute (e : Event) : bool :=
  match e with EvExecute _ _ _ _ => true | _ => false end.

Definition is_agent_init (e : Event) : bool :=
  match e with EvAgentInit _ => true | _ => false end.

(** The items of a [dict], in insertion order. *)
Abbreviation dict Value := (list (pystr * Value)).

Section Model.

(** The values inside a parameter mapping, the result of [execute] and the
    state of the services behind the libraries are opaque to the module. *)
Context {Value Result Ext : Type}.

Record World := mkWorld {
  files : Path -> option pystr;   (* text files on disk, as decoded text *)
  heap : list (dict Value);       (* live dict objects, by location *)
  trace : list Event;             (* library calls made so far *)
  ext : Ext                       (* the external services *)
}.

(** *** Computations: state passing with exceptions

    A raised exception keeps the state reached so far.  A coroutine is a
    computation that has not been run yet; [await] runs it. *)
Definition M (A : Type) := World -> (Exn + A) * World.

Definition ret {A} (a : A) : M A := fun w => (inr a, w).

Definition raise {A} (e : Exn) : M A := fun w => (inl e, w).

Definition bind {A B} (m : M A) (k : A -> M B) : M B :=
  fun w =>
    match m w with
    | (inl e, w') => (inl e, w')
    | (inr a, w') => k a w'
    end.

Definition log (e : Event) : M unit :=
  fun w => (inr tt, mkWorld (files w) (heap w) (trace w ++ [e]) (ext w)).

(** A library call that only touches the external services. *)
Definition external {A} (f : Ext -> (Exn + A) * Ext) : M A :=
  fun w =>
    let '(r, x) := f (ext w) in
    (r, mkWorld (files w) (heap w) (trace w) x).

End Model.

Arguments World : clear implicits.
Arguments M : clear implicits.

Declare Scope py_scope.
Delimit Scope py_scope with py_m.
Notation "x <- c ;; k" := (bind c (fun x => k))
  (at level 100, c at next level, right associativity) : py_scope.
Notation "c ;; k" := (bind c (fun _ => k))
  (at level 100, right associativity) : py_scope.
Local Open Scope py_scope.

Section Objects.

Context {Value Result Ext : Type}.

Local Abbreviation World := (World Value Ext).
Local Abbreviation M := (M Value Ext).

(** *** dict objects *)

(** Reading a dict through its location.  A location outside the heap
    does not occur in a Python run; the model reports it as an error. *)
Definition deref (l : loc) : M (dict Value) :=
  fun w =>
    match heap w !! l with
    | Some d => ret d w
    | None => raise (Raised (py "SystemError") (py "dangling dict")) w
    end.

(** The world once one more empty dict has been allocated. *)
Definition with_new_dict (w : World) : World :=
  mkWorld (files w) (heap w ++ [[]]) (trace w) (ext w).

(** The display [{}]: a new, empty dict object. *)
Definition new_dict : M pyobj :=
  fun w => (inr (PyDict (length (heap w))), with_new_dict w).

(** [bool(v)]: [None] is false, a dict is true when it has items. *)
Definition truth (v : pyobj) : M bool :=
  match v with
  | PyNone => ret false
  | PyDict l =>
      d <- deref l ;;
      ret (match d with [] => false | _ :: _ => true end)
  end.

(** [lhs or rhs]: [lhs] when it is true, otherwise [rhs] is evaluated. *)
Definition py_or (lhs : pyobj) (rhs : M pyobj) : M pyobj :=
  b <- truth lhs ;;
  if b then ret lhs else rhs.

(** The contents of a mapping argument in a world. *)
Definition items_of (w : World) (v : pyobj) : option (dict Value) :=
  match v with
  | PyNone => None
  | PyDict l => heap w !! l
  end.

(** A caller's [params] argument is well formed when the dict it names
    is a live object. *)
Definition live (w : World) (params_arg : option pyobj) : Prop :=
  match params_arg with
  | Some (PyDict l) => is_Some (heap w !! l)
  | _ => True
  end.

(** The mapping the caller means: nothing when [params] is left out or
    [None]. *)
Definition contents (w : World) (params_arg : option pyobj) : dict Value :=
  match params_arg with
  | Some (PyDict l) => default [] (heap w !! l)
  | _ => []
  end.

(** *** Connectors *)

(** What a connector does when executed: it sees the three arguments and
    may change dict objects and its service, and returns or raises. *)
Definition Backend :=
  pystr -> pystr -> pyobj -> list (dict Value) -> Ext ->
  (Exn + Result) * list (dict Value) * Ext.

Record GongConnector := mkGong { gong_id : nat; gong_backend : Backend }.

Record HubspotConnector :=
  mkHubspot { hubspot_id : nat; hubspot_backend : Backend }.

(** Both vendor classes offer [execute(entity, action, params)]. *)
Class Connector (C : Type) := {
  object_id : C -> nat;
  backend : C -> Backend
}.

#[global] Instance gong_connector : Connector GongConnector :=
  {| object_id := gong_id; backend := gong_backend |}.

#[global] Instance hubspot_connector : Connector HubspotConnector :=
  {| object_id := hubspot_id; backend := hubspot_backend |}.

(** [await connector.execute(entity, action, params)]. *)
Definition execute {C} `{Connector C} (connector : C)
    (entity action : pystr) (params : pyobj) : M Result :=
  log (EvExecute (object_id connector) entity action params) ;;
  fun w =>
    let '(r, h, x) := backend connector entity action params (heap w) (ext w) in
    (r, mkWorld (files w) h (trace w) x).

(** *** The agent framework *)

(** A tool as the framework calls it: [params] may be left out. *)
Definition ToolFn := pystr -> pystr -> option pyobj -> M Result.

(** Modelled from the spec: the agent of the external framework, "the
    orchestration object that owns tool registration".  It keeps the
    constructor's keyword arguments and the registered tools in order. *)
Record Agent := mkAgent { agent_kwargs : kwargs; tools : list ToolFn }.

(** Modelled from the spec: the [Agent] constructor, called with keyword
    arguments [kw], builds an agent without tools. *)
Definition Agent_init (kw : kwargs) : M Agent :=
  log (EvAgentInit kw) ;;
  ret (mkAgent kw []).

(** Modelled from the spec: [agent.tool_plain(f)] registers [f] as one
    more tool of [agent]; the agent is updated in place, which state
    passing shows as the agent returned. *)
Definition tool_plain (agent : Agent) (f : ToolFn) : M Agent :=
  ret (mkAgent (agent_kwargs agent) (tools agent ++ [f])).

End Objects.

Arguments Backend : clear implicits.
Arguments GongConnector : clear implicits.
Arguments HubspotConnector : clear implicits.
Arguments ToolFn : clear implicits.
Arguments Agent : clear implicits.

(** ** The module [agent_setup] *)

Module agent_setup.

Section AgentSetup.

Context {Value Result Ext : Type}.

Local Abbreviation World := (World Value Ext).
Local Abbreviation M := (M Value Ext).
Local Abbreviation ToolFn := (ToolFn Value Result Ext).
Local Abbreviation Agent := (Agent Value Result Ext).

(** [Path(__file__)]: where the module itself is stored. *)
Variable __file__ : Path.

(** The libraries, as the module finds them.  The model constructor may
    fail (credentials, network); the two decorators build a wrapper around
    the function they receive, and what the wrapper does when it is called
    is theirs to decide. *)
Variable AnthropicModel_init : pystr -> Ext -> (Exn + AnthropicModel) * Ext.
Variable traceable : pystr -> ToolFn -> ToolFn.
Variable airbyte_description : pystr -> ToolFn -> ToolFn.

(** [AnthropicModel(name)]. *)
Definition AnthropicModel_new (model : pystr) : M AnthropicModel :=
  log (EvAnthropicModel model) ;;
  external (AnthropicModel_init model).

(** [p.read_text()]: the text of the file, [FileNotFoundError] without. *)
Definition read_text (p : Path) : M pystr :=
  log (EvReadText p) ;;
  fun w =>
    match files w p with
    | Some text => ret text w
    | None => raise (FileNotFoundError p) w
    end.

Definition prompt_path : Path :=
  (parent __file__ / py "system_prompt.txt")%path.

Definition _load_system_prompt : M pystr :=
  text <- read_text prompt_path ;;
  ret (strip text).

Definition create_agent : M Agent :=
  model <- AnthropicModel_new (py "claude-sonnet-4-5-20250929") ;;
  system_prompt <- _load_system_prompt ;;
  agent <- Agent_init
             [("model"%string, KwModel model);
              ("deps_type"%string, KwUnion [GongConnectorT; HubspotConnectorT]);
              ("system_prompt"%string, KwStr system_prompt);
              ("retries"%string, KwInt 10%Z)] ;;
  ret agent.

(** The closure [gong_execute]: [params] defaults to [None]. *)
Definition gong_execute (connector : GongConnector Value Result Ext) : ToolFn :=
  fun entity action params_arg =>
    let params := default PyNone params_arg in
    arg <- py_or params new_dict ;;
    execute connector entity action arg.

Definition register_gong_tools (agent : Agent)
    (connector : GongConnector Value Result Ext) : M Agent :=
  tool_plain agent
    (airbyte_description (py "gong")
       (traceable (py "gong_execute")
          (gong_execute connector))).

(** The closure [hubspot_execute]. *)
Definition hubspot_execute (connector : HubspotConnector Value Result Ext)
  : ToolFn :=
  fun entity action params_arg =>
    let params := default PyNone params_arg in
    arg <- py_or params new_dict ;;
    execute connector entity action arg.

Definition register_hubspot_tools (agent : Agent)
    (connector : HubspotConnector Value Result Ext) : M Agent :=
  tool_plain agent
    (airbyte_description (py "hubspot")
       (traceable (py "hubspot_execute")
          (hubspot_execute connector))).

End AgentSetup.

End agent_setup.

Import agent_setup.

Arguments kwarg k%_string kw.

#[global] Instance Path_eq_dec : EqDecision Path.
Proof. solve_decision. Defined.

(** ** A concrete deployment, to run the definitions on *)

Module Sample.

(** Parameter values are integers, results are integers, and the external
    state counts the requests served. *)
Definition W := World Z nat.

(** A connector that answers with the number of parameters it got. *)
Definition counting_backend : Backend Z Z nat :=
  fun entity action params h served =>
    match params with
    | PyDict l =>
        match h !! l with
        | Some d => (inr (Z.of_nat (length d)), h, S served)
        | None => (inl (Raised (py "KeyError") (py "params")), h, served)
        end
    | PyNone => (inl (Raised (py "TypeError") (py "params")), h, served)
    end.

(** A connector whose upstream API is down. *)
Definition failing_backend : Backend Z Z nat :=
  fun entity action params h served =>
    (inl (Raised (py "ConnectorError") (py "upstream")), h, served).

Definition gong : GongConnector Z Z nat := mkGong 1 counting_backend.
Definition gong' : GongConnector Z Z nat := mkGong 3 failing_backend.
Definition hubspot : HubspotConnector Z Z nat := mkHubspot 2 failing_backend.
Definition hubspot' : HubspotConnector Z Z nat := mkHubspot 4 counting_backend.

Definition module_file : Path :=
  mkPath (py "/") [py "app"; py "src"; py "agent_setup.py"].

Definition prompt_file : Path :=
  mkPath (py "/") [py "app"; py "src"; py "system_prompt.txt"].

(** Two blanks, a sentence, a line feed. *)
Definition prompt_text : pystr :=
  [32; 32]%N ++ py "You are a sales assistant." ++ [10]%N.

Definition model_ok : pystr -> nat -> (Exn + AnthropicModel) * nat :=
  fun model x => (inr (mkModel model), x).


(** A tracing wrapper that counts the run before calling on. *)
Definition counting_trace : pystr -> ToolFn Z Z nat -> ToolFn Z Z nat :=
  fun _ f entity action params =>
    external (fun x => (inr tt, S x)) ;;
    f entity action params.

Definition keep : pystr -> ToolFn Z Z nat -> ToolFn Z Z nat :=
  fun _ f => f.

(** A disk with the prompt file, one dict [{"limit": 5}] and an empty one. *)
Definition w0 : W :=
  mkWorld
    (fun p => if decide (p = prompt_file) then Some prompt_text else None)
    [[(py "limit", 5%Z)]; []] [] 0.

(** The same, without the prompt file. *)
Definition w_no_prompt : W :=
  mkWorld (fun _ => None) [[(py "limit", 5%Z)]; []] [] 0.

(** A disk on which every file is empty. *)
Definition w_empty_prompt : W := mkWorld (fun _ => Some []) [] [] 0.

Definition agent0 : Agent Z Z nat := mkAgent [] [].

Definition calls : pystr := py "calls".
Definition list_ : pystr := py "list".
Definition sonnet : AnthropicModel :=
  mkModel (py "claude-sonnet-4-5-20250929").

End Sample.

(** ** Disciplines a connector may keep *)

Section Disciplines.

Context {Value Result Ext : Type}.

(** The connector does not drop dict objects: the heap it leaves is at
    least as long as the heap it got. *)
Definition keeps_objects (b : Backend Value Result Ext) : Prop :=
  forall entity action params h x,
    length h <= length (b entity action params h x).1.2.

(** The connector writes to no existing dict but the one it got as
    [params]. *)
Definition writes_params_only (b : Backend Value Result Ext) : Prop :=
  forall entity action l h x l',
    l' <> l -> l' < length h ->
    (b entity action (PyDict l) h x).1.2 !! l' = h !! l'.

End Disciplines.

Module Mutating.

(** A connector that records in its [params] dict that it has seen it,
    and answers with the number of items the dict had. *)
Definition storing_backend : Backend Z Z nat :=
  fun entity action params h served =>
    match params with
    | PyDict l =>
        match h !! l with
        | Some d =>
            (inr (Z.of_nat (length d)),
             <[l := d ++ [(py "seen", 1%Z)]]> h, S served)
        | None => (inl (Raised (py "KeyError") (py "params")), h, served)
        end
    | PyNone => (inl (Raised (py "TypeError") (py "params")), h, served)
    end.

Definition gong : GongConnector Z Z nat := mkGong 5 storing_backend.
Definition hubspot : HubspotConnector Z Z nat := mkHubspot 6 storing_backend.

(** A hubspot connector that is the gong connector of the sample under
    the other class. *)
Definition hubspot_twin : HubspotConnector Z Z nat :=
  mkHubspot 1 Sample.counting_backend.

(** A prompt file that holds a tab, a no-break space and a line feed. *)
Definition blank_text : pystr := [9; 160; 10]%N.

Definition w_blank_prompt : Sample.W :=
  mkWorld (fun _ => Some blank_text) [] [] 0.

End Mutating.

(** ** What the module relies on in the two decorators *)

Section Contracts.

Context {Value Result Ext : Type}.

Local Abbreviation World := (World Value Ext).
Local Abbreviation ToolFn := (ToolFn Value Result Ext).

(** The world with the external services in state [x]. *)
Definition with_ext (w : World) (x : Ext) : World :=
  mkWorld (files w) (heap w) (trace w) x.

(** Modelled from the spec: the tracing collector is "invoked transparently
    around each tool call".  [enter] opens a run for the call and [leave]
    closes it with the outcome of the call; both talk to the collector and
    may fail.  When neither fails the outcome of the call is handed on. *)
Definition around
    (enter : pystr -> pystr -> pystr -> option pyobj -> Ext -> (Exn + unit) * Ext)
    (leave : pystr -> Exn + Result -> Ext -> (Exn + unit) * Ext)
  : pystr -> ToolFn -> ToolFn :=
  fun name f entity action params =>
    external (enter name entity action params) ;;
    fun w =>
      let '(r, w1) := f entity action params w in
      match leave name r (ext w1) with
      | (inl x, xs) => (inl x, with_ext w1 xs)
      | (inr _, xs) => (r, with_ext w1 xs)
      end.




End Contracts.

Module Tracing.

(** A collector that is down when the service state is 7, and otherwise
    counts the runs it opens and closes. *)
Definition enter
  : pystr -> pystr -> pystr -> option pyobj -> nat -> (Exn + unit) * nat :=
  fun name entity action params x =>
    if Nat.eqb x 7
    then (inl (Raised (py "TracingError") (py "collector down")), x)
    else (inr tt, S x).

Definition leave : pystr -> Exn + Z -> nat -> (Exn + unit) * nat :=
  fun name outcome x => (inr tt, S x).

Definition traceable : pystr -> ToolFn Z Z nat -> ToolFn Z Z nat :=
  around enter leave.


End Tracing.

(** * Properties *)

(** ** [str.strip] *)

Section DropWhile.

Context {A : Type} (p : A -> bool).

Lemma drop_while_split (s : list A) :
  exists l, s = l ++ drop_while p s /\ Forall (fun c => p c = true) l.
Proof.
  induction s as [|c s IH]; simpl.
  - exists []. split; [reflexivity | constructor].
  - destruct (p c) eqn:Hc.
    + destruct IH as (l & Hs & Hl).
      exists (c :: l). split.
      * simpl. congruence.
      * constructor; assumption.
    + exists []. split; [reflexivity | constructor].
Qed.

Lemma drop_while_head (s : list A) (c : A) (s' : list A) :
  drop_while p s = c :: s' -> p c = false.
Proof.
  induction s as [|c0 s IH]; simpl; [discriminate|].
  destruct (p c0) eqn:Hc; [exact IH|].
  intros [= -> _]. exact Hc.
Qed.

Lemma drop_while_all (l s : list A) :
  Forall (fun c => p c = true) l -> drop_while p (l ++ s) = drop_while p s.
Proof.
  induction 1 as [|c l Hc _ IH]; simpl; [reflexivity|].
  rewrite Hc. exact IH.
Qed.

Lemma drop_while_keep (c : A) (s : list A) :
  p c = false -> drop_while p (c :: s) = c :: s.
Proof. intros Hc. simpl. rewrite Hc. reflexivity. Qed.

End DropWhile.

Lemma lstrip_split (t : pystr) :
  exists l, t = l ++ lstrip t
            /\ Forall (fun c => Py_UNICODE_ISSPACE c = true) l.
Proof. apply drop_while_split. Qed.

Lemma rstrip_split (t : pystr) :
  exists r, t = rstrip t ++ r
            /\ Forall (fun c => Py_UNICODE_ISSPACE c = true) r.
Proof.
  unfold rstrip.
  destruct (drop_while_split Py_UNICODE_ISSPACE (rev t)) as (l & Ht & Hl).
  exists (rev l). split.
  - rewrite <- rev_app_distr, <- Ht, rev_involutive. reflexivity.
  - apply List.Forall_rev. exact Hl.
Qed.

Lemma rstrip_last (t s' : pystr) (c : N) :
  rstrip t = s' ++ [c] -> Py_UNICODE_ISSPACE c = false.
Proof.
  unfold rstrip. intros H.
  apply (f_equal (@rev N)) in H.
  rewrite rev_involutive, rev_app_distr in H. simpl in H.
  exact (drop_while_head _ _ _ _ H).
Qed.

Lemma strip_trimmed (t : pystr) : trimmed_of t (strip t).
Proof.
  unfold strip.
  destruct (lstrip_split t) as (l & Ht & Hl).
  destruct (rstrip_split (lstrip t)) as (r & Hu & Hr).
  repeat split.
  - exists l, r. split; [|split; assumption].
    rewrite <- Hu. exact Ht.
  - intros c s' Hs. rewrite Hs in Hu. simpl in Hu.
    exact (drop_while_head Py_UNICODE_ISSPACE t c (s' ++ r) Hu).
  - intros c s'. apply rstrip_last.
Qed.

Lemma trimmed_is_strip (t s : pystr) : trimmed_of t s -> s = strip t.
Proof.
  intros ((l & r & -> & Hl & Hr) & Hhead & Hlast).
  unfold strip, lstrip. rewrite drop_while_all by exact Hl.
  destruct s as [|c s'].
  - simpl. rewrite <- (app_nil_r r), drop_while_all by exact Hr. reflexivity.
  - change ((c :: s') ++ r) with (c :: (s' ++ r)).
    rewrite drop_while_keep by (eapply Hhead; reflexivity).
    unfold rstrip. change (c :: (s' ++ r)) with ((c :: s') ++ r).
    rewrite rev_app_distr, drop_while_all.
    + destruct (exists_last (l := c :: s')) as (s'' & c' & Hs); [discriminate|].
      rewrite Hs, rev_app_distr. simpl.
      rewrite (Hlast c' s'' Hs). simpl.
      rewrite rev_involutive. reflexivity.
    + apply List.Forall_rev. exact Hr.
Qed.

(** ** Lists of registered tools *)

Lemma two_appended {A} (l : list A) (x y : A) :
  (l ++ [x]) ++ [y] = l ++ [x; y]
  /\ (l ++ [x]) !! length l = Some x
  /\ ((l ++ [x]) ++ [y]) !! length l = Some x
  /\ ((l ++ [x]) ++ [y]) !! S (length l) = Some y.
Proof.
  rewrite <- app_assoc. simpl. repeat split.
  - apply list_lookup_middle. reflexivity.
  - apply list_lookup_middle. reflexivity.
  - rewrite lookup_app_r by lia.
    replace (S (length l) - length l) with 1 by lia. reflexivity.
Qed.

(** ** The wrapper body *)

Section Forwarding.

Context {Value Result Ext : Type}.

Local Abbreviation World := (World Value Ext).

Lemma bind_inr {A B} (m : M Value Ext A) (k : A -> M Value Ext B)
    (a : A) (w w1 : World) :
  m w = (inr a, w1) -> bind m k w = k a w1.
Proof. intros Hm. unfold bind. rewrite Hm. reflexivity. Qed.

Lemma bind_inl {A B} (m : M Value Ext A) (k : A -> M Value Ext B)
    (e : Exn) (w w1 : World) :
  m w = (inl e, w1) -> bind m k w = (inl e, w1).
Proof. intros Hm. unfold bind. rewrite Hm. reflexivity. Qed.

(** One [execute] is one event and one run of the connector. *)
Lemma execute_run {C} `{@Connector Value Result Ext C} (c : C)
    (entity action : pystr) (arg : pyobj) (w : World) :
  execute c entity action arg w =
  let '(r, h, x) := backend c entity action arg (heap w) (ext w) in
  (r, mkWorld (files w) h
        (trace w ++ [EvExecute (object_id c) entity action arg]) x).
Proof. reflexivity. Qed.

Lemma py_or_none (w : World) :
  py_or PyNone new_dict w = (inr (PyDict (length (heap w))), with_new_dict w).
Proof. reflexivity. Qed.

Lemma py_or_empty (l : loc) (w : World) :
  heap w !! l = Some [] ->
  py_or (PyDict l) new_dict w
  = (inr (PyDict (length (heap w))), with_new_dict w).
Proof.
  intros Hl. unfold py_or, truth, bind, deref. cbv beta. rewrite Hl. reflexivity.
Qed.

Lemma py_or_items (l : loc) (kv : pystr * Value) (d : dict Value) (w : World) :
  heap w !! l = Some (kv :: d) ->
  py_or (PyDict l) new_dict w = (inr (PyDict l), w).
Proof.
  intros Hl. unfold py_or, truth, bind, deref. cbv beta. rewrite Hl. reflexivity.
Qed.

Lemma py_or_dangling (l : loc) (w : World) :
  heap w !! l = None ->
  py_or (PyDict l) new_dict w
  = (inl (Raised (py "SystemError") (py "dangling dict")), w).
Proof.
  intros Hl. unfold py_or, truth, bind, deref. cbv beta. rewrite Hl. reflexivity.
Qed.

(** The new dict is empty and was not an object before. *)
Lemma new_dict_fresh (w : World) :
  heap w !! length (heap w) = None
  /\ items_of (with_new_dict w) (PyDict (length (heap w))) = Some [].
Proof.
  split.
  - apply lookup_ge_None_2. lia.
  - simpl. rewrite lookup_app_r by lia.
    replace (length (heap w) - length (heap w)) with 0 by lia. reflexivity.
Qed.

(** What [params or {}] evaluates to, for a well-formed argument: the
    caller's dict itself when it has items, a new empty dict otherwise. *)
Lemma py_or_spec (params_arg : option pyobj) (w : World) :
  live w params_arg ->
  exists arg w1,
    py_or (default PyNone params_arg) new_dict w = (inr arg, w1)
    /\ items_of w1 arg = Some (contents w params_arg)
    /\ ((params_arg = Some arg /\ w1 = w /\ contents w params_arg <> [])
        \/ (arg = PyDict (length (heap w)) /\ w1 = with_new_dict w
            /\ contents w params_arg = [])).
Proof.
  intros Hlive.
  destruct params_arg as [[|l]|]; simpl in *.
  - eexists _, _. split; [apply py_or_none|].
    split; [apply new_dict_fresh|]. right. auto.
  - destruct Hlive as [d Hd]. rewrite Hd. simpl. destruct d as [|kv d].
    + eexists _, _. split; [apply py_or_empty; exact Hd|].
      split; [apply new_dict_fresh|]. right. auto.
    + eexists _, _. split; [eapply py_or_items; exact Hd|].
      split; [exact Hd|]. left. auto.
  - eexists _, _. split; [apply py_or_none|].
    split; [apply new_dict_fresh|]. right. auto.
Qed.

(** The common body of the two closures. *)
Lemma forward_spec {C} `{@Connector Value Result Ext C} (c : C)
    (entity action : pystr) (params_arg : option pyobj) (w : World) :
  live w params_arg ->
  exists arg w1,
    (arg <- py_or (default PyNone params_arg) new_dict ;;
     execute c entity action arg) w
    = execute c entity action arg w1
    /\ items_of w1 arg = Some (contents w params_arg)
    /\ ((params_arg = Some arg /\ w1 = w /\ contents w params_arg <> [])
        \/ (arg = PyDict (length (heap w)) /\ w1 = with_new_dict w
            /\ contents w params_arg = [])).
Proof.
  intros Hlive.
  destruct (py_or_spec params_arg w Hlive) as (arg & w1 & Hor & Hitems & Hcase).
  exists arg, w1. split; [|split; assumption].
  unfold bind at 1. rewrite Hor. reflexivity.
Qed.

(** Whatever the argument, the body adds at most one event, an [execute]
    on its own connector with a dict for [params]. *)
Lemma forward_events {C} `{@Connector Value Result Ext C} (c : C)
    (entity action : pystr) (params_arg : option pyobj) (w : World) :
  let w' := snd ((arg <- py_or (default PyNone params_arg) new_dict ;;
                  execute c entity action arg) w) in
  trace w' = trace w
  \/ exists l, trace w'
               = trace w ++ [EvExecute (object_id c) entity action (PyDict l)].
Proof.
  destruct params_arg as [[|l]|]; simpl.
  - right. eexists. unfold bind at 1. rewrite py_or_none, execute_run.
    destruct (backend _ _ _ _ _ _) as [[r h] x]. reflexivity.
  - destruct (heap w !! l) as [[|kv d]|] eqn:Hl.
    + right. eexists. unfold bind at 1. rewrite py_or_empty by exact Hl.
      rewrite execute_run.
      destruct (backend _ _ _ _ _ _) as [[r h] x]. reflexivity.
    + right. eexists. unfold bind at 1.
      rewrite (py_or_items _ _ _ _ Hl), execute_run.
      destruct (backend _ _ _ _ _ _) as [[r h] x]. reflexivity.
    + left. unfold bind at 1. rewrite py_or_dangling by exact Hl.
      reflexivity.
  - right. eexists. unfold bind at 1. rewrite py_or_none, execute_run.
    destruct (backend _ _ _ _ _ _) as [[r h] x]. reflexivity.
Qed.

Lemma execute_trace {C} `{@Connector Value Result Ext C} (c : C)
    (entity action : pystr) (arg : pyobj) (w : World) :
  trace (snd (execute c entity action arg w))
  = trace w ++ [EvExecute (object_id c) entity action arg].
Proof.
  rewrite execute_run.
  destruct (backend _ _ _ _ _ _) as [[r h] x]. reflexivity.
Qed.


(** Without any assumption on the argument: the body either stops on a
    dangling location before anything was called, or is one [execute] on
    its own connector, with a dict for [params]. *)
Lemma forward_total {C} `{@Connector Value Result Ext C} (c : C)
    (entity action : pystr) (params_arg : option pyobj) (w : World) :
  (exists l, params_arg = Some (PyDict l) /\ heap w !! l = None
             /\ snd ((arg <- py_or (default PyNone params_arg) new_dict ;;
                      execute c entity action arg) w) = w)
  \/ (exists l w1,
        (arg <- py_or (default PyNone params_arg) new_dict ;;
         execute c entity action arg) w
        = execute c entity action (PyDict l) w1
        /\ (w1 = w \/ w1 = with_new_dict w)).
Proof.
  destruct params_arg as [[|l]|]; simpl.
  - right. eexists _, _. unfold bind at 1. rewrite py_or_none. auto.
  - destruct (heap w !! l) as [[|kv d]|] eqn:Hl.
    + right. eexists _, _. unfold bind at 1.
      rewrite py_or_empty by exact Hl. auto.
    + right. eexists _, _. unfold bind at 1.
      rewrite (py_or_items _ _ _ _ Hl). auto.
    + left. exists l. split; [reflexivity|]. split; [exact Hl|].
      unfold bind. rewrite py_or_dangling by exact Hl. reflexivity.
  - right. eexists _, _. unfold bind at 1. rewrite py_or_none. auto.
Qed.

End Forwarding.

(** ** The tool closures *)

Section Tools.

Context {Value Result Ext : Type}.

Local Abbreviation World := (World Value Ext).
Local Abbreviation GongConnector := (GongConnector Value Result Ext).
Local Abbreviation HubspotConnector := (HubspotConnector Value Result Ext).

(** C1: for every entity, action and provided mapping, [gong_execute] and
    [hubspot_execute] are one call of the connector's [execute] with the
    same entity and action and a mapping with the caller's items (the
    caller's own dict when it has items), and their outcome is that
    call's; with [params] left out, [execute] gets a new empty mapping.
    The last two parts spell out what one [execute] is: one event with
    the three values, and the connector's outcome, heap and service. *)
Theorem tool_forwards_arguments
    (gong : GongConnector) (hubspot : HubspotConnector)
    (entity action : pystr) (l : loc) (d : dict Value) (w : World) :
  heap w !! l = Some d ->
  (exists arg w1,
      gong_execute gong entity action (Some (PyDict l)) w
      = execute gong entity action arg w1
      /\ hubspot_execute hubspot entity action (Some (PyDict l)) w
         = execute hubspot entity action arg w1
      /\ items_of w1 arg = Some d
      /\ ((arg = PyDict l /\ w1 = w /\ d <> [])
          \/ (arg = PyDict (length (heap w)) /\ w1 = with_new_dict w
              /\ d = [])))
  /\ gong_execute gong entity action None w
     = execute gong entity action (PyDict (length (heap w))) (with_new_dict w)
  /\ hubspot_execute hubspot entity action None w
     = execute hubspot entity action (PyDict (length (heap w)))
         (with_new_dict w)
  /\ items_of (with_new_dict w) (PyDict (length (heap w))) = Some []
  /\ (forall arg w1,
        execute gong entity action arg w1
        = let '(r, h, x) :=
            gong_backend gong entity action arg (heap w1) (ext w1) in
          (r, mkWorld (files w1) h
                (trace w1 ++ [EvExecute (gong_id gong) entity action arg]) x))
  /\ (forall arg w1,
        execute hubspot entity action arg w1
        = let '(r, h, x) :=
            hubspot_backend hubspot entity action arg (heap w1) (ext w1) in
          (r, mkWorld (files w1) h
                (trace w1
                 ++ [EvExecute (hubspot_id hubspot) entity action arg]) x)).
Proof.
  intros Hl. split; [|repeat split].
  - destruct d as [|kv d].
    + exists (PyDict (length (heap w))), (with_new_dict w).
      unfold gong_execute, hubspot_execute, bind. simpl.
      rewrite (py_or_empty l w Hl).
      repeat split; [apply new_dict_fresh | right; auto].
    + exists (PyDict l), w.
      unfold gong_execute, hubspot_execute, bind. simpl.
      rewrite (py_or_items l kv d w Hl).
      repeat split; [exact Hl | left; repeat split; discriminate].
  - apply new_dict_fresh.
Qed.

(** C8: with [params=None] passed explicitly the connector's [execute]
    gets a new empty mapping; and whatever is passed for [params], an
    [execute] made by the wrappers has a dict, never [None], as its
    params argument. *)
Theorem explicit_none_forwards_empty_mapping
    (gong : GongConnector) (hubspot : HubspotConnector)
    (entity action : pystr) (w : World) :
  gong_execute gong entity action (Some PyNone) w
  = execute gong entity action (PyDict (length (heap w))) (with_new_dict w)
  /\ hubspot_execute hubspot entity action (Some PyNone) w
     = execute hubspot entity action (PyDict (length (heap w)))
         (with_new_dict w)
  /\ items_of (with_new_dict w) (PyDict (length (heap w))) = Some []
  /\ (forall params_arg,
        let w' := snd (gong_execute gong entity action params_arg w) in
        trace w' = trace w
        \/ exists l', trace w'
             = trace w ++ [EvExecute (gong_id gong) entity action (PyDict l')])
  /\ (forall params_arg,
        let w' := snd (hubspot_execute hubspot entity action params_arg w) in
        trace w' = trace w
        \/ exists l', trace w'
             = trace w
               ++ [EvExecute (hubspot_id hubspot) entity action (PyDict l')]).
Proof.
  split; [reflexivity|]. split; [reflexivity|].
  split; [apply new_dict_fresh|]. split; intros params_arg.
  - exact (forward_events gong entity action params_arg w).
  - exact (forward_events hubspot entity action params_arg w).
Qed.

End Tools.

(** ** Construction and registration *)

Section Setup.

Context {Value Result Ext : Type}.

Local Abbreviation World := (World Value Ext).
Local Abbreviation ToolFn := (ToolFn Value Result Ext).
Local Abbreviation Agent := (Agent Value Result Ext).
Local Abbreviation GongConnector := (GongConnector Value Result Ext).
Local Abbreviation HubspotConnector := (HubspotConnector Value Result Ext).

Variable __file__ : Path.
Variable AnthropicModel_init : pystr -> Ext -> (Exn + AnthropicModel) * Ext.
Variable traceable : pystr -> ToolFn -> ToolFn.
Variable airbyte_description : pystr -> ToolFn -> ToolFn.

Local Abbreviation prompt_path := (prompt_path __file__).
Local Abbreviation create_agent :=
  (@create_agent Value Result Ext __file__ AnthropicModel_init).
Local Abbreviation _load_system_prompt :=
  (@_load_system_prompt Value Ext __file__).
Local Abbreviation register_gong_tools :=
  (register_gong_tools traceable airbyte_description).
Local Abbreviation register_hubspot_tools :=
  (register_hubspot_tools traceable airbyte_description).
Local Abbreviation model_id := (py "claude-sonnet-4-5-20250929").

(** The keyword arguments [create_agent] gives to [Agent]. *)
Local Abbreviation agent_kw m s :=
  [("model"%string, KwModel m);
   ("deps_type"%string, KwUnion [GongConnectorT; HubspotConnectorT]);
   ("system_prompt"%string, KwStr s);
   ("retries"%string, KwInt 10%Z)].

Lemma prompt_path_name : name prompt_path = py "system_prompt.txt".
Proof.
  unfold name, agent_setup.prompt_path, truediv. cbn [names].
  apply last_last.
Qed.

Lemma prompt_path_parent : parent prompt_path = parent __file__.
Proof.
  unfold agent_setup.prompt_path, truediv.
  generalize (parent __file__). intros [a ns].
  unfold parent. cbn [names anchor].
  destruct (ns ++ [py "system_prompt.txt"]) eqn:E.
  - destruct ns; discriminate.
  - rewrite <- E, removelast_last. reflexivity.
Qed.

Lemma load_system_prompt_run (text : pystr) (w : World) :
  files w prompt_path = Some text ->
  _load_system_prompt w
  = (inr (strip text),
     mkWorld (files w) (heap w) (trace w ++ [EvReadText prompt_path]) (ext w)).
Proof.
  intros Hf. unfold agent_setup._load_system_prompt, read_text, bind, log.
  cbn [files]. rewrite Hf. reflexivity.
Qed.

Lemma load_system_prompt_absent (w : World) :
  files w prompt_path = None ->
  _load_system_prompt w
  = (inl (FileNotFoundError prompt_path),
     mkWorld (files w) (heap w) (trace w ++ [EvReadText prompt_path]) (ext w)).
Proof.
  intros Hf. unfold agent_setup._load_system_prompt, read_text, bind, log.
  cbn [files]. rewrite Hf. reflexivity.
Qed.

Lemma model_new_run (w : World) :
  AnthropicModel_new AnthropicModel_init model_id w
  = (fst (AnthropicModel_init model_id (ext w)),
     mkWorld (files w) (heap w) (trace w ++ [EvAnthropicModel model_id])
       (snd (AnthropicModel_init model_id (ext w)))).
Proof.
  unfold AnthropicModel_new, bind, log, external. cbn [ext files heap trace].
  destruct (AnthropicModel_init model_id (ext w)) as [r x]. reflexivity.
Qed.

Lemma create_agent_no_model (exn : Exn) (x : Ext) (w : World) :
  AnthropicModel_init model_id (ext w) = (inl exn, x) ->
  create_agent w
  = (inl exn,
     mkWorld (files w) (heap w) (trace w ++ [EvAnthropicModel model_id]) x).
Proof.
  intros Hm. unfold agent_setup.create_agent. unfold bind at 1.
  rewrite model_new_run, Hm. reflexivity.
Qed.

Lemma create_agent_no_prompt (m : AnthropicModel) (x : Ext) (w : World) :
  AnthropicModel_init model_id (ext w) = (inr m, x) ->
  files w prompt_path = None ->
  create_agent w
  = (inl (FileNotFoundError prompt_path),
     mkWorld (files w) (heap w)
       (trace w ++ [EvAnthropicModel model_id; EvReadText prompt_path]) x).
Proof.
  intros Hm Hf. unfold agent_setup.create_agent. unfold bind at 1.
  rewrite model_new_run, Hm. cbn [fst snd]. unfold bind at 1.
  rewrite load_system_prompt_absent by exact Hf.
  cbn [files heap trace ext]. rewrite <- app_assoc. reflexivity.
Qed.

Lemma create_agent_run (m : AnthropicModel) (x : Ext) (text : pystr)
    (w : World) :
  AnthropicModel_init model_id (ext w) = (inr m, x) ->
  files w prompt_path = Some text ->
  create_agent w
  = (inr (mkAgent (agent_kw m (strip text)) []),
     mkWorld (files w) (heap w)
       (trace w ++ [EvAnthropicModel model_id; EvReadText prompt_path;
                    EvAgentInit (agent_kw m (strip text))]) x).
Proof.
  intros Hm Hf. unfold agent_setup.create_agent. unfold bind at 1.
  rewrite model_new_run, Hm. cbn [fst snd]. unfold bind at 1.
  rewrite (load_system_prompt_run text) by exact Hf.
  cbv beta iota delta [bind Agent_init log ret files heap trace ext].
  rewrite <- !app_assoc. reflexivity.
Qed.

(** C2: whatever the text of the prompt file, the empty text included,
    [_load_system_prompt] reads the file [system_prompt.txt] in the
    module's directory and returns its text trimmed of surrounding
    whitespace ([strip] is the one string that is the text so trimmed);
    and once the model object exists, that string is the [system_prompt]
    argument of the [Agent] constructor. *)
Theorem system_prompt_is_trimmed_file_text (text : pystr) (w : World) :
  files w prompt_path = Some text ->
  _load_system_prompt w
  = (inr (strip text),
     mkWorld (files w) (heap w) (trace w ++ [EvReadText prompt_path]) (ext w))
  /\ trimmed_of text (strip text)
  /\ (forall s, trimmed_of text s -> s = strip text)
  /\ name prompt_path = py "system_prompt.txt"
  /\ parent prompt_path = parent __file__
  /\ (forall m x,
        AnthropicModel_init model_id (ext w) = (inr m, x) ->
        exists kw w',
          create_agent w = (inr (mkAgent kw []), w')
          /\ kwarg "system_prompt" kw = Some (KwStr (strip text))
          /\ trace w'
             = trace w ++ [EvAnthropicModel model_id; EvReadText prompt_path;
                           EvAgentInit kw]).
Proof.
  intros Hf.
  split; [exact (load_system_prompt_run text w Hf)|].
  split; [apply strip_trimmed|].
  split; [intros s; apply trimmed_is_strip|].
  split; [exact prompt_path_name|].
  split; [exact prompt_path_parent|].
  intros m x Hm. eexists _, _.
  split; [exact (create_agent_run m x text w Hm Hf)|].
  split; reflexivity.
Qed.

(** C4: without the prompt file [create_agent] raises, and the [Agent]
    constructor is not called; when the model object could be built the
    error is the [FileNotFoundError] of the prompt path. *)
Theorem create_agent_fails_without_prompt (w : World) :
  files w prompt_path = None ->
  exists exn w' evs,
    create_agent w = (inl exn, w')
    /\ trace w' = trace w ++ evs
    /\ Forall (fun e => is_agent_init e = false) evs
    /\ (forall m x,
          AnthropicModel_init model_id (ext w) = (inr m, x) ->
          exn = FileNotFoundError prompt_path).
Proof.
  intros Hf.
  destruct (AnthropicModel_init model_id (ext w)) as [[exn|m] x] eqn:Hm.
  - eexists _, _, _. split; [exact (create_agent_no_model exn x w Hm)|].
    split; [reflexivity|]. split; [repeat constructor|].
    intros m x' [=].
  - eexists _, _, _. split; [exact (create_agent_no_prompt m x w Hm Hf)|].
    split; [reflexivity|]. split; [repeat constructor|].
    reflexivity.
Qed.

(** C6: when the model object is built and the prompt file is there,
    [create_agent] calls the [Agent] constructor once, with [retries=10]
    among exactly four keyword arguments (model, deps_type, system_prompt,
    retries), and returns that agent; the wrappers add no retry of their
    own, an invocation calls [execute] at most once. *)
Theorem create_agent_retry_budget
    (m : AnthropicModel) (x : Ext) (text : pystr) (w : World)
    (gong : GongConnector) (hubspot : HubspotConnector) :
  AnthropicModel_init model_id (ext w) = (inr m, x) ->
  files w prompt_path = Some text ->
  (exists kw,
      create_agent w
      = (inr (mkAgent kw []),
         mkWorld (files w) (heap w)
           (trace w ++ [EvAnthropicModel model_id; EvReadText prompt_path;
                        EvAgentInit kw]) x)
      /\ kwarg "retries" kw = Some (KwInt 10)
      /\ map fst kw
         = ["model"; "deps_type"; "system_prompt"; "retries"]%string)
  /\ (forall entity action params_arg w1,
        let w' := snd (gong_execute gong entity action params_arg w1) in
        trace w' = trace w1
        \/ exists l, trace w'
             = trace w1 ++ [EvExecute (gong_id gong) entity action (PyDict l)])
  /\ (forall entity action params_arg w1,
        let w' := snd (hubspot_execute hubspot entity action params_arg w1) in
        trace w' = trace w1
        \/ exists l, trace w'
             = trace w1
               ++ [EvExecute (hubspot_id hubspot) entity action (PyDict l)]).
Proof.
  intros Hm Hf. split; [|split].
  - eexists. split; [exact (create_agent_run m x text w Hm Hf)|].
    split; reflexivity.
  - intros entity action params_arg w1.
    exact (forward_events gong entity action params_arg w1).
  - intros entity action params_arg w1.
    exact (forward_events hubspot entity action params_arg w1).
Qed.

(** The tool the module hands to [agent.tool_plain]. *)
Local Abbreviation gong_tool c :=
  (airbyte_description (py "gong")
     (traceable (py "gong_execute") (gong_execute c))).
Local Abbreviation hubspot_tool c :=
  (airbyte_description (py "hubspot")
     (traceable (py "hubspot_execute") (hubspot_execute c))).

Lemma register_gong_run (agent : Agent) (c : GongConnector) (w : World) :
  register_gong_tools agent c w
  = (inr (mkAgent (agent_kwargs agent) (tools agent ++ [gong_tool c])), w).
Proof. reflexivity. Qed.

Lemma register_hubspot_run (agent : Agent) (c : HubspotConnector)
    (w : World) :
  register_hubspot_tools agent c w
  = (inr (mkAgent (agent_kwargs agent) (tools agent ++ [hubspot_tool c])), w).
Proof. reflexivity. Qed.

(** C5: each registration returns normally and leaves the agent with
    exactly one more tool, after the ones it had: a function of entity,
    action and optional params that is the closure over the connector it
    was given, under the two library decorators; and that closure, on a
    well-formed argument, is one [execute] of that same connector with
    the caller's entity, action and mapping items. *)
Theorem register_adds_one_forwarding_tool
    (agent : Agent) (gong : GongConnector) (hubspot : HubspotConnector)
    (entity action : pystr) (params_arg : option pyobj) (w w1 : World) :
  live w1 params_arg ->
  (exists t : ToolFn,
      register_gong_tools agent gong w
      = (inr (mkAgent (agent_kwargs agent) (tools agent ++ [t])), w)
      /\ t = airbyte_description (py "gong")
               (traceable (py "gong_execute") (gong_execute gong)))
  /\ (exists t : ToolFn,
        register_hubspot_tools agent hubspot w
        = (inr (mkAgent (agent_kwargs agent) (tools agent ++ [t])), w)
        /\ t = airbyte_description (py "hubspot")
                 (traceable (py "hubspot_execute")
                    (hubspot_execute hubspot)))
  /\ (exists arg w2,
        gong_execute gong entity action params_arg w1
        = execute gong entity action arg w2
        /\ items_of w2 arg = Some (contents w1 params_arg)
        /\ (w2 = w1 \/ w2 = with_new_dict w1))
  /\ (exists arg w2,
        hubspot_execute hubspot entity action params_arg w1
        = execute hubspot entity action arg w2
        /\ items_of w2 arg = Some (contents w1 params_arg)
        /\ (w2 = w1 \/ w2 = with_new_dict w1)).
Proof.
  intros Hlive.
  split; [eexists; split; [apply register_gong_run | reflexivity]|].
  split; [eexists; split; [apply register_hubspot_run | reflexivity]|].
  split.
  - destruct (forward_spec gong entity action params_arg w1 Hlive)
      as (arg & w2 & Hrun & Hitems & Hcase).
    exists arg, w2. split; [exact Hrun|]. split; [exact Hitems|].
    destruct Hcase as [(_ & -> & _)|(_ & -> & _)]; auto.
  - destruct (forward_spec hubspot entity action params_arg w1 Hlive)
      as (arg & w2 & Hrun & Hitems & Hcase).
    exists arg, w2. split; [exact Hrun|]. split; [exact Hitems|].
    destruct Hcase as [(_ & -> & _)|(_ & -> & _)]; auto.
Qed.

(** C7: registering twice, with connectors [c1] and then [c2], leaves two
    tools, one per connector, and the first is the same whether or not,
    and with whatever connector, the second registration is made; the
    second registration can as well go to any other agent [b].  A closure
    calls the [execute] of its own connector only, and the mapping it
    supplies when the caller gives none is a dict allocated by that very
    invocation, not an object that existed before it. *)
Theorem registrations_are_independent
    (agent : Agent) (c1 c2 c2' : GongConnector)
    (h1 h2 h2' : HubspotConnector) (w : World) :
  let n := length (tools agent) in
  (exists a1 a2 a2',
      register_gong_tools agent c1 w = (inr a1, w)
      /\ register_gong_tools a1 c2 w = (inr a2, w)
      /\ register_gong_tools a1 c2' w = (inr a2', w)
      /\ tools a2 = tools agent ++ [gong_tool c1; gong_tool c2]
      /\ tools a1 !! n = Some (gong_tool c1)
      /\ tools a2 !! n = Some (gong_tool c1)
      /\ tools a2' !! n = Some (gong_tool c1)
      /\ tools a2 !! S n = Some (gong_tool c2))
  /\ (exists a1 a2 a2',
        register_hubspot_tools agent h1 w = (inr a1, w)
        /\ register_hubspot_tools a1 h2 w = (inr a2, w)
        /\ register_hubspot_tools a1 h2' w = (inr a2', w)
        /\ tools a2 = tools agent ++ [hubspot_tool h1; hubspot_tool h2]
        /\ tools a1 !! n = Some (hubspot_tool h1)
        /\ tools a2 !! n = Some (hubspot_tool h1)
        /\ tools a2' !! n = Some (hubspot_tool h1)
        /\ tools a2 !! S n = Some (hubspot_tool h2))
  /\ (forall b : Agent,
        register_gong_tools b c2 w
        = (inr (mkAgent (agent_kwargs b) (tools b ++ [gong_tool c2])), w)
        /\ register_hubspot_tools b h2 w
           = (inr (mkAgent (agent_kwargs b) (tools b ++ [hubspot_tool h2])), w))
  /\ (forall entity action params_arg w1,
        (exists l, params_arg = Some (PyDict l) /\ heap w1 !! l = None
                   /\ snd (gong_execute c1 entity action params_arg w1) = w1)
        \/ (exists l w2,
              gong_execute c1 entity action params_arg w1
              = execute c1 entity action (PyDict l) w2
              /\ (w2 = w1 \/ w2 = with_new_dict w1)))
  /\ (forall entity action params_arg w1,
        (exists l, params_arg = Some (PyDict l) /\ heap w1 !! l = None
                   /\ snd (hubspot_execute h1 entity action params_arg w1)
                      = w1)
        \/ (exists l w2,
              hubspot_execute h1 entity action params_arg w1
              = execute h1 entity action (PyDict l) w2
              /\ (w2 = w1 \/ w2 = with_new_dict w1)))
  /\ (forall entity action w1,
        gong_execute c1 entity action None w1
        = execute c1 entity action (PyDict (length (heap w1)))
            (with_new_dict w1)
        /\ hubspot_execute h1 entity action None w1
           = execute h1 entity action (PyDict (length (heap w1)))
               (with_new_dict w1)
        /\ heap w1 !! length (heap w1) = None
        /\ items_of (with_new_dict w1) (PyDict (length (heap w1)))
           = Some []).
Proof.
  intros n. split; [|split; [|split; [|split; [|split]]]].
  - eexists _, _, _. rewrite !register_gong_run. cbn [tools agent_kwargs].
    destruct (two_appended (tools agent) (gong_tool c1) (gong_tool c2))
      as (Happ & H1 & H2 & H3).
    destruct (two_appended (tools agent) (gong_tool c1) (gong_tool c2'))
      as (_ & _ & H2' & _).
    split; [reflexivity|]. split; [reflexivity|]. split; [reflexivity|].
    split; [exact Happ|]. split; [exact H1|]. split; [exact H2|].
    split; [exact H2'|exact H3].
  - eexists _, _, _. rewrite !register_hubspot_run. cbn [tools agent_kwargs].
    destruct (two_appended (tools agent) (hubspot_tool h1) (hubspot_tool h2))
      as (Happ & H1 & H2 & H3).
    destruct (two_appended (tools agent) (hubspot_tool h1) (hubspot_tool h2'))
      as (_ & _ & H2' & _).
    split; [reflexivity|]. split; [reflexivity|]. split; [reflexivity|].
    split; [exact Happ|]. split; [exact H1|]. split; [exact H2|].
    split; [exact H2'|exact H3].
  - intros b. split; [apply register_gong_run | apply register_hubspot_run].
  - intros entity action params_arg w1.
    exact (forward_total c1 entity action params_arg w1).
  - intros entity action params_arg w1.
    exact (forward_total h1 entity action params_arg w1).
  - intros entity action w1.
    split; [reflexivity|]. split; [reflexivity|]. apply new_dict_fresh.
Qed.

(** C9: a registration changes nothing but the agent: the world after it
    is the world before it, so no [execute] was made; the connector is
    called when the closure is invoked, which adds the one [execute]
    event of that connector. *)
Theorem registration_does_not_execute
    (agent : Agent) (gong : GongConnector) (hubspot : HubspotConnector)
    (entity action : pystr) (params_arg : option pyobj) (w w1 : World) :
  live w1 params_arg ->
  register_gong_tools agent gong w
  = (inr (mkAgent (agent_kwargs agent) (tools agent ++ [gong_tool gong])), w)
  /\ register_hubspot_tools agent hubspot w
     = (inr (mkAgent (agent_kwargs agent)
               (tools agent ++ [hubspot_tool hubspot])), w)
  /\ filter is_execute (trace (snd (register_gong_tools agent gong w)))
     = filter is_execute (trace w)
  /\ filter is_execute (trace (snd (register_hubspot_tools agent hubspot w)))
     = filter is_execute (trace w)
  /\ (exists arg,
        trace (snd (gong_execute gong entity action params_arg w1))
        = trace w1 ++ [EvExecute (gong_id gong) entity action arg])
  /\ (exists arg,
        trace (snd (hubspot_execute hubspot entity action params_arg w1))
        = trace w1 ++ [EvExecute (hubspot_id hubspot) entity action arg]).
Proof.
  intros Hlive.
  split; [apply register_gong_run|]. split; [apply register_hubspot_run|].
  split; [reflexivity|]. split; [reflexivity|]. split.
  - destruct (forward_spec gong entity action params_arg w1 Hlive)
      as (arg & w2 & Hrun & _ & Hcase).
    exists arg. unfold gong_execute. rewrite Hrun, execute_trace.
    destruct Hcase as [(_ & -> & _)|(_ & -> & _)]; reflexivity.
  - destruct (forward_spec hubspot entity action params_arg w1 Hlive)
      as (arg & w2 & Hrun & _ & Hcase).
    exists arg. unfold hubspot_execute. rewrite Hrun, execute_trace.
    destruct Hcase as [(_ & -> & _)|(_ & -> & _)]; reflexivity.
Qed.

End Setup.

(** ** Errors on their way out *)

Section Propagation.

Context {Value Result Ext : Type}.

Local Abbreviation World := (World Value Ext).
Local Abbreviation ToolFn := (ToolFn Value Result Ext).
Local Abbreviation Agent := (Agent Value Result Ext).
Local Abbreviation GongConnector := (GongConnector Value Result Ext).
Local Abbreviation HubspotConnector := (HubspotConnector Value Result Ext).

Variable __file__ : Path.
Variable AnthropicModel_init : pystr -> Ext -> (Exn + AnthropicModel) * Ext.
Variable traceable : pystr -> ToolFn -> ToolFn.
Variable airbyte_description : pystr -> ToolFn -> ToolFn.
Variable enter :
  pystr -> pystr -> pystr -> option pyobj -> Ext -> (Exn + unit) * Ext.
Variable leave : pystr -> Exn + Result -> Ext -> (Exn + unit) * Ext.

Local Abbreviation prompt_path := (prompt_path __file__).
Local Abbreviation create_agent :=
  (@create_agent Value Result Ext __file__ AnthropicModel_init).
Local Abbreviation _load_system_prompt :=
  (@_load_system_prompt Value Ext __file__).
Local Abbreviation register_gong_tools :=
  (register_gong_tools traceable airbyte_description).
Local Abbreviation register_hubspot_tools :=
  (register_hubspot_tools traceable airbyte_description).
Local Abbreviation model_id := (py "claude-sonnet-4-5-20250929").





End Propagation.

(** ** The properties at the sample deployment *)

Module SampleRuns.

Import Sample.

(** Two gong registrations on one agent, each tool then called without
    params on the sample world: each reaches its own connector, with a
    dict that was not in the heap. *)
Example two_registrations_run :
  match register_gong_tools keep keep agent0 gong w0 with
  | (inr a1, _) =>
      match register_gong_tools keep keep a1 gong' w0 with
      | (inr a2, _) =>
          match tools a2 with
          | [t1; t2] =>
              (t1 calls list_ None w0).1 = inr 0%Z
              /\ trace (t1 calls list_ None w0).2
                 = [EvExecute 1 calls list_ (PyDict 2)]
              /\ (t2 calls list_ None w0).1
                 = inl (Raised (py "ConnectorError") (py "upstream"))
              /\ trace (t2 calls list_ None w0).2
                 = [EvExecute 3 calls list_ (PyDict 2)]
          | _ => False
          end
      | _ => False
      end
  | _ => False
  end.
Proof. cbn. repeat split. Qed.

(** A dict with one item is handed over as it is. *)
Lemma tool_forwards_arguments_witness :
  heap w0 !! 0 = Some [(py "limit", 5%Z)]
  /\ exists arg w1,
       gong_execute gong calls list_ (Some (PyDict 0)) w0
       = execute gong calls list_ arg w1
       /\ hubspot_execute hubspot calls list_ (Some (PyDict 0)) w0
          = execute hubspot calls list_ arg w1
       /\ items_of w1 arg = Some [(py "limit", 5%Z)]
       /\ ((arg = PyDict 0 /\ w1 = w0 /\ [(py "limit", 5%Z)] <> [])
           \/ (arg = PyDict (length (heap w0)) /\ w1 = with_new_dict w0
               /\ [(py "limit", 5%Z)] = [])).
Proof.
  split; [reflexivity|].
  exact (proj1 (tool_forwards_arguments gong hubspot calls list_ 0
                  [(py "limit", 5%Z)] w0 eq_refl)).
Defined.

(** The prompt file of the sample, and an empty prompt file. *)
Lemma system_prompt_is_trimmed_file_text_witness :
  (files w0 (prompt_path module_file) = Some prompt_text
   /\ fst (@_load_system_prompt Z nat module_file w0)
      = inr (py "You are a sales assistant."))
  /\ (files w_empty_prompt (prompt_path module_file) = Some []
      /\ fst (@_load_system_prompt Z nat module_file w_empty_prompt)
         = inr []).
Proof.
  split; (split; [reflexivity|]).
  - exact (f_equal fst
             (proj1 (@system_prompt_is_trimmed_file_text Z Z nat module_file
                       model_ok prompt_text w0 eq_refl))).
  - exact (f_equal fst
             (proj1 (@system_prompt_is_trimmed_file_text Z Z nat module_file
                       model_ok [] w_empty_prompt eq_refl))).
Defined.



Lemma create_agent_fails_without_prompt_witness :
  files w_no_prompt (prompt_path module_file) = None
  /\ exists exn w' evs,
       create_agent (Result := Z) module_file model_ok w_no_prompt
       = (inl exn, w')
       /\ trace w' = trace w_no_prompt ++ evs
       /\ Forall (fun e => is_agent_init e = false) evs
       /\ (forall m x,
             model_ok (py "claude-sonnet-4-5-20250929") (ext w_no_prompt)
             = (inr m, x) ->
             exn = FileNotFoundError (prompt_path module_file)).
Proof.
  split; [reflexivity|].
  exact (create_agent_fails_without_prompt (Result := Z) module_file
           model_ok w_no_prompt eq_refl).
Defined.

(** Registering on the empty agent; the empty dict of the sample heap is
    replaced by a new one. *)
Lemma register_adds_one_forwarding_tool_witness :
  live w0 (Some (PyDict 1))
  /\ (exists t,
        register_gong_tools counting_trace keep agent0 gong w0
        = (inr (mkAgent [] [t]), w0)
        /\ t = keep (py "gong")
                 (counting_trace (py "gong_execute") (gong_execute gong)))
  /\ (exists arg w2,
        gong_execute gong calls list_ (Some (PyDict 1)) w0
        = execute gong calls list_ arg w2
        /\ items_of w2 arg = Some []
        /\ (w2 = w0 \/ w2 = with_new_dict w0)).
Proof.
  assert (Hlive : live w0 (Some (PyDict 1))) by (eexists; reflexivity).
  split; [exact Hlive|].
  destruct (register_adds_one_forwarding_tool counting_trace keep agent0
              gong hubspot calls list_ (Some (PyDict 1)) w0 w0 Hlive)
    as (Hg & _ & Hfwd & _).
  split; [exact Hg | exact Hfwd].
Defined.

Lemma create_agent_retry_budget_witness :
  model_ok (py "claude-sonnet-4-5-20250929") (ext w0) = (inr sonnet, 0)
  /\ files w0 (prompt_path module_file) = Some prompt_text
  /\ exists kw,
       create_agent (Result := Z) module_file model_ok w0
       = (inr (mkAgent kw []),
          mkWorld (files w0) (heap w0)
            (trace w0
             ++ [EvAnthropicModel (py "claude-sonnet-4-5-20250929");
                 EvReadText (prompt_path module_file); EvAgentInit kw]) 0)
       /\ kwarg "retries" kw = Some (KwInt 10)
       /\ map fst kw
          = ["model"; "deps_type"; "system_prompt"; "retries"]%string.
Proof.
  split; [reflexivity|]. split; [reflexivity|].
  exact (proj1 (create_agent_retry_budget module_file model_ok sonnet 0
                  prompt_text w0 gong hubspot eq_refl eq_refl)).
Defined.

Lemma registration_does_not_execute_witness :
  live w0 (Some (PyDict 0))
  /\ snd (register_hubspot_tools counting_trace keep agent0 hubspot w0) = w0
  /\ exists arg,
       trace (snd (gong_execute gong calls list_ (Some (PyDict 0)) w0))
       = trace w0 ++ [EvExecute (gong_id gong) calls list_ arg].
Proof.
  assert (Hlive : live w0 (Some (PyDict 0))) by (eexists; reflexivity).
  split; [exact Hlive|].
  destruct (registration_does_not_execute counting_trace keep agent0
              gong hubspot calls list_ (Some (PyDict 0)) w0 w0 Hlive)
    as (_ & Hh & _ & _ & Hg & _).
  split; [rewrite Hh; reflexivity | exact Hg].
Defined.

End SampleRuns.

(** * Further properties of the module *)

(** ** More on [str.strip] *)

Lemma strip_surrounding (l t r : pystr) :
  Forall (fun c => Py_UNICODE_ISSPACE c = true) l ->
  Forall (fun c => Py_UNICODE_ISSPACE c = true) r ->
  strip (l ++ t ++ r) = strip t.
Proof.
  intros Hl Hr. symmetry. apply trimmed_is_strip.
  destruct (strip_trimmed t) as ((l' & r' & Ht & Hl' & Hr') & Hhead & Hlast).
  split; [|split; assumption].
  exists (l ++ l'), (r' ++ r). split; [|split].
  - assert (E : l ++ t ++ r = l ++ (l' ++ strip t ++ r') ++ r)
      by (rewrite <- Ht; reflexivity).
    rewrite E, <- !app_assoc. reflexivity.
  - apply Forall_app_2; assumption.
  - apply Forall_app_2; assumption.
Qed.

Lemma strip_blank (t : pystr) :
  Forall (fun c => Py_UNICODE_ISSPACE c = true) t -> strip t = [].
Proof.
  intros Ht. transitivity (strip (t ++ [] ++ [])).
  - simpl. rewrite app_nil_r. reflexivity.
  - rewrite strip_surrounding; [reflexivity | exact Ht | constructor].
Qed.

Lemma strip_idempotent (t : pystr) : strip (strip t) = strip t.
Proof.
  symmetry. apply trimmed_is_strip.
  destruct (strip_trimmed t) as (_ & Hhead & Hlast).
  split; [|split; assumption].
  exists [], []. split; [|split; constructor].
  simpl. rewrite app_nil_r. reflexivity.
Qed.

Lemma strip_length (t : pystr) : length (strip t) <= length t.
Proof.
  destruct (strip_trimmed t) as ((l & r & Ht & _) & _).
  apply (f_equal (@length N)) in Ht. rewrite !length_app in Ht. lia.
Qed.

Lemma strip_fixed (t : pystr) : strip t = t <-> trimmed_of t t.
Proof.
  split.
  - intros E. pose proof (strip_trimmed t) as H. rewrite E in H. exact H.
  - intros H. symmetry. apply trimmed_is_strip. exact H.
Qed.

(** ** More on the wrapper body *)

Section Aliasing.

Context {Value Result Ext : Type}.

Local Abbreviation World := (World Value Ext).

Lemma execute_heap {C} `{@Connector Value Result Ext C} (c : C)
    (entity action : pystr) (arg : pyobj) (w : World) :
  heap (snd (execute c entity action arg w))
  = (backend c entity action arg (heap w) (ext w)).1.2.
Proof.
  rewrite execute_run.
  destruct (backend _ _ _ _ _ _) as [[r h] x]. reflexivity.
Qed.

(** When the body defaults, the connector gets the new dict. *)
Lemma forward_defaulted {C} `{@Connector Value Result Ext C} (c : C)
    (entity action : pystr) (params_arg : option pyobj) (w : World) :
  live w params_arg -> contents w params_arg = [] ->
  (arg <- py_or (default PyNone params_arg) new_dict ;;
   execute c entity action arg) w
  = execute c entity action (PyDict (length (heap w))) (with_new_dict w).
Proof.
  intros Hlive Hempty.
  destruct (forward_spec c entity action params_arg w Hlive)
    as (arg & w1 & Hrun & _ & [(_ & _ & Hne)|(-> & -> & _)]).
  - contradiction.
  - exact Hrun.
Qed.

(** A caller's empty dict stays empty when the connector writes only to
    the dict it was given. *)
Lemma forward_keeps_empty_dict {C} `{@Connector Value Result Ext C} (c : C)
    (entity action : pystr) (l : loc) (w : World) :
  heap w !! l = Some [] ->
  writes_params_only (backend c) ->
  heap (snd ((arg <- py_or (default PyNone (Some (PyDict l))) new_dict ;;
              execute c entity action arg) w)) !! l = Some [].
Proof.
  intros Hl Hb.
  assert (Hlt : l < length (heap w)) by (eapply lookup_lt_Some; exact Hl).
  rewrite forward_defaulted.
  - rewrite execute_heap. cbn [heap ext with_new_dict].
    rewrite Hb.
    + rewrite lookup_app_l by exact Hlt. exact Hl.
    + lia.
    + rewrite length_app. simpl. lia.
  - exists []. exact Hl.
  - simpl. rewrite Hl. reflexivity.
Qed.

End Aliasing.

(** ** More on construction, registration and invocation *)

Section MoreSetup.

Context {Value Result Ext : Type}.

Local Abbreviation World := (World Value Ext).
Local Abbreviation ToolFn := (ToolFn Value Result Ext).
Local Abbreviation Agent := (Agent Value Result Ext).
Local Abbreviation GongConnector := (GongConnector Value Result Ext).
Local Abbreviation HubspotConnector := (HubspotConnector Value Result Ext).

Variable __file__ : Path.
Variable AnthropicModel_init : pystr -> Ext -> (Exn + AnthropicModel) * Ext.
Variable traceable : pystr -> ToolFn -> ToolFn.
Variable airbyte_description : pystr -> ToolFn -> ToolFn.

Local Abbreviation prompt_path := (prompt_path __file__).
Local Abbreviation create_agent :=
  (@create_agent Value Result Ext __file__ AnthropicModel_init).
Local Abbreviation _load_system_prompt :=
  (@_load_system_prompt Value Ext __file__).
Local Abbreviation register_gong_tools :=
  (register_gong_tools traceable airbyte_description).
Local Abbreviation register_hubspot_tools :=
  (register_hubspot_tools traceable airbyte_description).
Local Abbreviation model_id := (py "claude-sonnet-4-5-20250929").
Local Abbreviation agent_kw m s :=
  [("model"%string, KwModel m);
   ("deps_type"%string, KwUnion [GongConnectorT; HubspotConnectorT]);
   ("system_prompt"%string, KwStr s);
   ("retries"%string, KwInt 10%Z)].
Local Abbreviation gong_tool c :=
  (airbyte_description (py "gong")
     (traceable (py "gong_execute") (gong_execute c))).
Local Abbreviation hubspot_tool c :=
  (airbyte_description (py "hubspot")
     (traceable (py "hubspot_execute") (hubspot_execute c))).
Local Abbreviation isspace := (fun c => Py_UNICODE_ISSPACE c = true).

(** X1: whitespace put before and after the text of the prompt file does
    not change the prompt that is loaded. *)
Theorem load_system_prompt_ignores_surrounding_whitespace
    (l text r : pystr) (w : World) :
  Forall isspace l -> Forall isspace r ->
  files w prompt_path = Some (l ++ text ++ r) ->
  fst (_load_system_prompt w) = inr (strip text).
Proof.
  intros Hl Hr Hf.
  rewrite (load_system_prompt_run __file__ (l ++ text ++ r) w Hf).
  cbn [fst]. rewrite (strip_surrounding l text r Hl Hr). reflexivity.
Qed.

(** X2: the prompt that is loaded is stable under another [strip], is not
    longer than the file's text, and is the file's text itself exactly when
    that text neither starts nor ends with whitespace. *)
Theorem load_system_prompt_result_is_trimmed (text : pystr) (w : World) :
  files w prompt_path = Some text ->
  exists s,
    fst (_load_system_prompt w) = inr s
    /\ strip s = s
    /\ length s <= length text
    /\ (s = text <-> trimmed_of text text).
Proof.
  intros Hf. exists (strip text).
  rewrite (load_system_prompt_run __file__ text w Hf).
  split; [reflexivity|]. split; [apply strip_idempotent|].
  split; [apply strip_length | apply strip_fixed].
Qed.

(** X3: a prompt file that holds nothing but whitespace is not an error:
    the agent is built, with the empty string as its system prompt. *)
Theorem create_agent_accepts_blank_prompt
    (m : AnthropicModel) (x : Ext) (text : pystr) (w : World) :
  AnthropicModel_init model_id (ext w) = (inr m, x) ->
  files w prompt_path = Some text ->
  Forall isspace text ->
  fst (create_agent w) = inr (mkAgent (agent_kw m []) []).
Proof.
  intros Hm Hf Hblank.
  rewrite (create_agent_run __file__ AnthropicModel_init m x text w Hm Hf).
  cbn [fst]. rewrite (strip_blank text Hblank). reflexivity.
Qed.

(** X4: what [create_agent] does to the world, in every case.  It leaves
    the disk and the dict objects alone, the services are changed by the
    model constructor only, and it never calls [execute].  The model
    constructor comes first: when it fails the prompt file is not read;
    when the file is missing the [Agent] constructor is not called. *)
Theorem create_agent_effects (w : World) :
  files (snd (create_agent w)) = files w
  /\ heap (snd (create_agent w)) = heap w
  /\ ext (snd (create_agent w)) = snd (AnthropicModel_init model_id (ext w))
  /\ exists evs,
       trace (snd (create_agent w))
       = trace w ++ EvAnthropicModel model_id :: evs
       /\ Forall (fun e => is_execute e = false) evs
       /\ ((exists exn,
              fst (AnthropicModel_init model_id (ext w)) = inl exn
              /\ fst (create_agent w) = inl exn
              /\ evs = [])
           \/ (exists m,
                 fst (AnthropicModel_init model_id (ext w)) = inr m
                 /\ files w prompt_path = None
                 /\ fst (create_agent w) = inl (FileNotFoundError prompt_path)
                 /\ evs = [EvReadText prompt_path])
           \/ (exists m text,
                 fst (AnthropicModel_init model_id (ext w)) = inr m
                 /\ files w prompt_path = Some text
                 /\ fst (create_agent w)
                    = inr (mkAgent (agent_kw m (strip text)) [])
                 /\ evs = [EvReadText prompt_path;
                           EvAgentInit (agent_kw m (strip text))])).
Proof.
  destruct (AnthropicModel_init model_id (ext w)) as [[exn|m] x] eqn:Hm.
  - rewrite (create_agent_no_model __file__ AnthropicModel_init exn x w Hm).
    repeat (split; [reflexivity|]).
    exists []. split; [reflexivity|]. split; [constructor|].
    left. exists exn. auto.
  - destruct (files w prompt_path) as [text|] eqn:Hf.
    + rewrite (create_agent_run __file__ AnthropicModel_init m x text w Hm Hf).
      repeat (split; [reflexivity|]).
      eexists. split; [reflexivity|]. split; [repeat constructor|].
      right. right. exists m, text. auto.
    + rewrite (create_agent_no_prompt __file__ AnthropicModel_init m x w Hm Hf).
      repeat (split; [reflexivity|]).
      eexists. split; [reflexivity|]. split; [repeat constructor|].
      right. left. exists m. auto.
Qed.

(** X5: an empty dict given as [params] is not the dict the connector
    gets: a connector that writes only to its own [params] leaves the
    caller's dict empty. *)
Theorem empty_params_dict_is_not_aliased
    (gong : GongConnector) (hubspot : HubspotConnector)
    (entity action : pystr) (l : loc) (w : World) :
  heap w !! l = Some [] ->
  writes_params_only (gong_backend gong) ->
  writes_params_only (hubspot_backend hubspot) ->
  heap (snd (gong_execute gong entity action (Some (PyDict l)) w)) !! l
  = Some []
  /\ heap (snd (hubspot_execute hubspot entity action (Some (PyDict l)) w))
       !! l
     = Some [].
Proof.
  intros Hl Hg Hh. split.
  - exact (forward_keeps_empty_dict gong entity action l w Hl Hg).
  - exact (forward_keeps_empty_dict hubspot entity action l w Hl Hh).
Qed.

(** X6: two invocations that both leave the mapping to the wrapper (no
    params, [None], or an empty dict) never hand the same dict object to
    the connectors: the second gets a new, empty dict that did not exist
    when the first ran, whatever the first connector stored in its own,
    as long as that connector drops no objects. *)
Theorem defaulted_params_are_never_shared
    (gong : GongConnector) (hubspot : HubspotConnector)
    (entity action entity' action' : pystr) (p p' : option pyobj)
    (w : World) :
  live w p -> contents w p = [] ->
  keeps_objects (gong_backend gong) ->
  live (snd (gong_execute gong entity action p w)) p' ->
  contents (snd (gong_execute gong entity action p w)) p' = [] ->
  exists l1 l2,
    trace (snd (hubspot_execute hubspot entity' action' p'
                  (snd (gong_execute gong entity action p w))))
    = trace w ++ [EvExecute (gong_id gong) entity action (PyDict l1);
                  EvExecute (hubspot_id hubspot) entity' action' (PyDict l2)]
    /\ l1 < l2
    /\ heap w !! l1 = None
    /\ hubspot_execute hubspot entity' action' p'
         (snd (gong_execute gong entity action p w))
       = execute hubspot entity' action' (PyDict l2)
           (with_new_dict (snd (gong_execute gong entity action p w)))
    /\ items_of (with_new_dict (snd (gong_execute gong entity action p w)))
         (PyDict l2)
       = Some [].
Proof.
  intros Hlive Hempty Hkeep.
  assert (Hrun1 : gong_execute gong entity action p w
                  = execute gong entity action (PyDict (length (heap w)))
                      (with_new_dict w))
    by exact (forward_defaulted gong entity action p w Hlive Hempty).
  rewrite Hrun1. set (w1 := snd (execute gong _ _ _ _)).
  intros Hlive' Hempty'.
  assert (Hrun2 : hubspot_execute hubspot entity' action' p' w1
                  = execute hubspot entity' action' (PyDict (length (heap w1)))
                      (with_new_dict w1))
    by exact (forward_defaulted hubspot entity' action' p' w1 Hlive' Hempty').
  exists (length (heap w)), (length (heap w1)).
  split; [|split; [|split; [|split]]].
  - rewrite Hrun2, execute_trace. cbn [trace with_new_dict].
    unfold w1. rewrite execute_trace. cbn [trace with_new_dict].
    rewrite <- app_assoc. reflexivity.
  - unfold w1. rewrite execute_heap. cbn [heap ext with_new_dict].
    pose proof (Hkeep entity action (PyDict (length (heap w)))
                  (heap w ++ [[]]) (ext w)) as Hlen.
    cbn [backend gong_connector].
    rewrite length_app in Hlen. simpl in Hlen. lia.
  - apply new_dict_fresh.
  - exact Hrun2.
  - apply new_dict_fresh.
Qed.

(** X7: setting an agent up, [create_agent] and then the two
    registrations, gives an agent with the constructor's keyword
    arguments and exactly the gong tool and the hubspot tool, in that
    order, without any [execute]; and when [create_agent] raises, nothing
    is registered and its error is the error of the whole. *)
Theorem setup_pipeline
    (m : AnthropicModel) (x : Ext) (text : pystr) (w : World)
    (gong : GongConnector) (hubspot : HubspotConnector) :
  AnthropicModel_init model_id (ext w) = (inr m, x) ->
  files w prompt_path = Some text ->
  (agent <- create_agent ;;
   agent1 <- register_gong_tools agent gong ;;
   register_hubspot_tools agent1 hubspot) w
  = (inr (mkAgent (agent_kw m (strip text))
            [gong_tool gong; hubspot_tool hubspot]),
     mkWorld (files w) (heap w)
       (trace w ++ [EvAnthropicModel model_id; EvReadText prompt_path;
                    EvAgentInit (agent_kw m (strip text))]) x)
  /\ (forall wf exn wf',
        create_agent wf = (inl exn, wf') ->
        (agent <- create_agent ;;
         agent1 <- register_gong_tools agent gong ;;
         register_hubspot_tools agent1 hubspot) wf
        = (inl exn, wf')).
Proof.
  intros Hm Hf. split.
  - rewrite (bind_inr _ _ _ _ _
               (create_agent_run __file__ AnthropicModel_init m x text w Hm Hf)).
    reflexivity.
  - intros wf exn wf' Hfail. exact (bind_inl _ _ _ _ _ Hfail).
Qed.

(** X8: the two wrappers are the same function but for the class of the
    connector: on connectors with the same identity and behaviour they do
    the same on every input. *)
Theorem wrappers_agree
    (gong : GongConnector) (hubspot : HubspotConnector)
    (entity action : pystr) (params_arg : option pyobj) (w : World) :
  gong_id gong = hubspot_id hubspot ->
  gong_backend gong = hubspot_backend hubspot ->
  gong_execute gong entity action params_arg w
  = hubspot_execute hubspot entity action params_arg w.
Proof.
  intros Hid Hb. unfold gong_execute, hubspot_execute, execute.
  cbn [object_id backend gong_connector hubspot_connector].
  rewrite Hid, Hb. reflexivity.
Qed.

End MoreSetup.

(** ** The further properties at the sample deployment *)

Module MoreRuns.

Import Sample.

Lemma storing_keeps_objects : keeps_objects Mutating.storing_backend.
Proof.
  intros entity action [|l] h x; [simpl; lia|].
  cbv beta iota delta [Mutating.storing_backend].
  destruct (h !! l); cbn [fst snd].
  - rewrite length_insert. lia.
  - lia.
Qed.

Lemma storing_writes_params_only :
  writes_params_only Mutating.storing_backend.
Proof.
  intros entity action l h x l' Hne _.
  cbv beta iota delta [Mutating.storing_backend].
  case_match; cbn [fst snd].
  - apply list_lookup_insert_ne. congruence.
  - reflexivity.
Qed.

(** With the storing connector, a dict that has items comes back changed,
    the empty dict of the heap does not. *)
Example storing_connector_runs :
  heap (gong_execute Mutating.gong calls list_ (Some (PyDict 0)) w0).2
  = [[(py "limit", 5%Z); (py "seen", 1%Z)]; []]
  /\ heap (gong_execute Mutating.gong calls list_ (Some (PyDict 1)) w0).2
     = [[(py "limit", 5%Z)]; []; [(py "seen", 1%Z)]].
Proof. split; reflexivity. Qed.

Lemma load_system_prompt_ignores_surrounding_whitespace_witness :
  Forall (fun c => Py_UNICODE_ISSPACE c = true) [32; 32]%N
  /\ Forall (fun c => Py_UNICODE_ISSPACE c = true) [10]%N
  /\ files w0 (prompt_path module_file)
     = Some ([32; 32]%N ++ py "You are a sales assistant." ++ [10]%N)
  /\ fst (@_load_system_prompt Z nat module_file w0)
     = inr (strip (py "You are a sales assistant.")).
Proof.
  assert (Hl : Forall (fun c => Py_UNICODE_ISSPACE c = true) [32; 32]%N)
    by (repeat constructor).
  assert (Hr : Forall (fun c => Py_UNICODE_ISSPACE c = true) [10]%N)
    by (repeat constructor).
  split; [exact Hl|]. split; [exact Hr|]. split; [reflexivity|].
  exact (load_system_prompt_ignores_surrounding_whitespace module_file
           [32; 32]%N (py "You are a sales assistant.") [10]%N w0
           Hl Hr eq_refl).
Defined.

Lemma load_system_prompt_result_is_trimmed_witness :
  files w0 (prompt_path module_file) = Some prompt_text
  /\ exists s,
       fst (@_load_system_prompt Z nat module_file w0) = inr s
       /\ strip s = s
       /\ length s <= length prompt_text
       /\ (s = prompt_text <-> trimmed_of prompt_text prompt_text).
Proof.
  split; [reflexivity|].
  exact (load_system_prompt_result_is_trimmed module_file prompt_text w0
           eq_refl).
Defined.

Lemma create_agent_accepts_blank_prompt_witness :
  model_ok (py "claude-sonnet-4-5-20250929") (ext Mutating.w_blank_prompt)
  = (inr sonnet, 0)
  /\ files Mutating.w_blank_prompt (prompt_path module_file)
     = Some Mutating.blank_text
  /\ Forall (fun c => Py_UNICODE_ISSPACE c = true) Mutating.blank_text
  /\ kwarg "system_prompt"
       match fst (create_agent (Result := Z) module_file model_ok
                    Mutating.w_blank_prompt) with
       | inr agent => agent_kwargs agent
       | inl _ => []
       end
     = Some (KwStr []).
Proof.
  assert (Hb : Forall (fun c => Py_UNICODE_ISSPACE c = true)
                 Mutating.blank_text) by (repeat constructor).
  split; [reflexivity|]. split; [reflexivity|]. split; [exact Hb|].
  rewrite (create_agent_accepts_blank_prompt (Result := Z) module_file
             model_ok sonnet 0 Mutating.blank_text Mutating.w_blank_prompt
             eq_refl eq_refl Hb).
  reflexivity.
Defined.

Lemma empty_params_dict_is_not_aliased_witness :
  heap w0 !! 1 = Some []
  /\ writes_params_only (gong_backend Mutating.gong)
  /\ writes_params_only (hubspot_backend Mutating.hubspot)
  /\ heap (snd (gong_execute Mutating.gong calls list_ (Some (PyDict 1)) w0))
       !! 1
     = Some []
  /\ heap (snd (hubspot_execute Mutating.hubspot calls list_
                  (Some (PyDict 1)) w0)) !! 1
     = Some [].
Proof.
  split; [reflexivity|].
  split; [exact storing_writes_params_only|].
  split; [exact storing_writes_params_only|].
  exact (empty_params_dict_is_not_aliased Mutating.gong Mutating.hubspot
           calls list_ 1 w0 eq_refl storing_writes_params_only
           storing_writes_params_only).
Defined.

(** The gong tool is called without params, then the hubspot tool with the
    empty dict of the heap. *)
Lemma defaulted_params_are_never_shared_witness :
  live w0 None
  /\ contents w0 None = []
  /\ keeps_objects (gong_backend Mutating.gong)
  /\ live (snd (gong_execute Mutating.gong calls list_ None w0))
       (Some (PyDict 1))
  /\ contents (snd (gong_execute Mutating.gong calls list_ None w0))
       (Some (PyDict 1)) = []
  /\ exists l1 l2,
       trace (snd (hubspot_execute hubspot' calls list_ (Some (PyDict 1))
                     (snd (gong_execute Mutating.gong calls list_ None w0))))
       = trace w0 ++ [EvExecute (gong_id Mutating.gong) calls list_ (PyDict l1);
                      EvExecute (hubspot_id hubspot') calls list_ (PyDict l2)]
       /\ l1 < l2
       /\ heap w0 !! l1 = None
       /\ hubspot_execute hubspot' calls list_ (Some (PyDict 1))
            (snd (gong_execute Mutating.gong calls list_ None w0))
          = execute hubspot' calls list_ (PyDict l2)
              (with_new_dict
                 (snd (gong_execute Mutating.gong calls list_ None w0)))
       /\ items_of (with_new_dict
                      (snd (gong_execute Mutating.gong calls list_ None w0)))
            (PyDict l2)
          = Some [].
Proof.
  assert (Hlive' : live (snd (gong_execute Mutating.gong calls list_ None w0))
                     (Some (PyDict 1))) by (eexists; reflexivity).
  split; [exact I|]. split; [reflexivity|].
  split; [exact storing_keeps_objects|]. split; [exact Hlive'|].
  split; [reflexivity|].
  exact (defaulted_params_are_never_shared Mutating.gong hubspot'
           calls list_ calls list_ None (Some (PyDict 1)) w0
           I eq_refl storing_keeps_objects Hlive' eq_refl).
Defined.

Lemma setup_pipeline_witness :
  model_ok (py "claude-sonnet-4-5-20250929") (ext w0) = (inr sonnet, 0)
  /\ files w0 (prompt_path module_file) = Some prompt_text
  /\ match fst ((agent <- create_agent module_file model_ok ;;
                 agent1 <- register_gong_tools counting_trace keep agent gong ;;
                 register_hubspot_tools counting_trace keep agent1 hubspot)
                  w0) with
     | inr agent => length (tools agent) = 2
                    /\ kwarg "retries" (agent_kwargs agent) = Some (KwInt 10)
     | inl _ => False
     end.
Proof.
  split; [reflexivity|]. split; [reflexivity|].
  rewrite (proj1 (setup_pipeline module_file model_ok counting_trace keep
                    sonnet 0 prompt_text w0 gong hubspot eq_refl eq_refl)).
  split; reflexivity.
Defined.

Lemma wrappers_agree_witness :
  gong_id gong = hubspot_id Mutating.hubspot_twin
  /\ gong_backend gong = hubspot_backend Mutating.hubspot_twin
  /\ gong_execute gong calls list_ (Some (PyDict 0)) w0
     = hubspot_execute Mutating.hubspot_twin calls list_ (Some (PyDict 0)) w0.
Proof.
  split; [reflexivity|]. split; [reflexivity|].
  exact (wrappers_agree gong Mutating.hubspot_twin calls list_
           (Some (PyDict 0)) w0 eq_refl eq_refl).
Defined.

End MoreRuns.
